(** * The NHIS satisfaction-score service ([predict.py])

    A shallow embedding of the Flask service of [predict.py]: the module-level
    load of the model artifact, the view function [predict] bound to
    [POST /predict], and the part of the framework and of the interpreter
    that the view relies on (the JSON loading of the request body with its
    limits, [jsonify], and the conversion of an exception that escapes the
    view into an error response).

    Python values are an inductive type with dictionaries as [gmap]s; the
    statements of the view run in a small state-and-exception monad over the
    process state (the global [model] binding and a log of the effects that
    the properties below speak about). *)

From Stdlib Require Import ZArith String List.
From Stdlib Require Import Floats.SpecFloat.
From stdpp Require Import gmap strings list fin_maps.

Local Open Scope string_scope.
Local Open Scope list_scope.
#[local] Set Warnings "-register-all".

(** ** Python values *)

(** The values that [json.loads] produces, plus [VObject] for any other Python
    object (a [numpy.int64], an [ndarray], ...), which the JSON provider of the
    framework cannot serialise.  A float is an IEEE binary64 datum; integers
    are unbounded. *)
Inductive value : Type :=
  | VNone
  | VBool (b : bool)
  | VInt (n : Z)
  | VFloat (x : spec_float)
  | VStr (s : string)
  | VList (l : list value)
  | VDict (d : gmap string value)
  | VObject (cls : string).

(** [int] and [float] (not [bool], [str], [None], containers). *)
Definition is_number (v : value) : bool :=
  match v with
  | VInt _ | VFloat _ => true
  | _ => false
  end.

Definition is_dict (v : value) : bool :=
  match v with
  | VDict _ => true
  | _ => false
  end.

(** ** Limits of the interpreter *)

(** What the behaviour of the service depends on in the interpreter that runs
    it.  [max_str_digits] is [sys.get_int_max_str_digits()]: the number of
    decimal digits beyond which an [int] is neither read from nor written to
    a string (4300 unless configured, 0 for no limit).  [loads_depth] and
    [dumps_depth] are the numbers of containers, one inside the other, that
    the JSON scanner and the JSON encoder can enter before the recursion
    limit of the interpreter is hit; they depend on the limit set and on the
    depth of the stack at the time of the call. *)
Class Runtime : Type := {
  max_str_digits : nat;
  loads_depth : nat;
  dumps_depth : nat
}.

(** Whether [n] can be converted from and to its decimal writing: the
    conversion raises [ValueError] when a limit is set and [n] has more
    digits than it (never for 640 digits or fewer, whatever the limit). *)
Definition int_fits `{!Runtime} (n : Z) : bool :=
  (max_str_digits =? 0)%nat
  || (Z.abs n <? 10 ^ Z.of_nat (max max_str_digits 640))%Z.

(** What [json.dumps] accepts with [fuel] levels of nesting left: neither a
    foreign object ([TypeError]), nor an integer over the digit limit
    ([ValueError]), nor containers nested deeper than [fuel]
    ([RecursionError]; entering a list or a dict, even an empty one, takes a
    level). *)
Fixpoint dumps_ok `{!Runtime} (fuel : nat) (v : value) {struct v} : bool :=
  match v with
  | VObject _ => false
  | VInt n => int_fits n
  | VList l =>
      match fuel with
      | O => false
      | S fuel' => forallb (dumps_ok fuel') l
      end
  | VDict d =>
      match fuel with
      | O => false
      | S fuel' => map_fold (λ _ v' acc, dumps_ok fuel' v' && acc) true d
      end
  | _ => true
  end.

(** The class of the exception that [json.dumps] raises on a value it does
    not accept: that of the first failure met, the elements of a list being
    visited in order.  (The members of a dict are visited here in the order
    of [map_fold]; the class does not show in the response.) *)
Fixpoint dumps_error `{!Runtime} (fuel : nat) (v : value) {struct v}
    : option string :=
  match v with
  | VObject _ => Some "TypeError"
  | VInt n => if int_fits n then None else Some "ValueError"
  | VList l =>
      match fuel with
      | O => Some "RecursionError"
      | S fuel' =>
          (fix first_error (l : list value) : option string :=
             match l with
             | [] => None
             | v' :: l' =>
                 match dumps_error fuel' v' with
                 | Some e => Some e
                 | None => first_error l'
                 end
             end) l
      end
  | VDict d =>
      match fuel with
      | O => Some "RecursionError"
      | S fuel' =>
          map_fold (λ _ v' acc,
                      match dumps_error fuel' v' with
                      | Some e => Some e
                      | None => acc
                      end) None d
      end
  | _ => None
  end.

(** Whether [v] can be dumped as a member of the object that the view
    answers with, which itself takes one level of the encoder's nesting. *)
Definition json_serializable `{!Runtime} (v : value) : bool :=
  match dumps_depth with
  | O => false
  | S fuel => dumps_ok fuel v
  end.

(** ** Request bodies and their loading *)

(** The text of a body as the JSON scanner goes through it.  A number
    without fraction or exponent is an integer literal; any other number,
    and the literals [NaN], [Infinity] and [-Infinity] that the scanner
    takes as well, is given by the float it denotes.  The members of an
    object are in the order of the text and a key can occur several times.
    [JBad] marks the place where the text stops being JSON (an empty body
    is [JBad] alone). *)
Inductive json : Type :=
  | JNull
  | JBool (b : bool)
  | JInt (n : Z)
  | JFloat (x : spec_float)
  | JStr (s : string)
  | JArr (items : list json)
  | JObj (members : list (string * json))
  | JBad.

(** A body: a text, possibly followed by something else than white space. *)
Record raw_body : Type := RawBody { text : json; extra_data : bool }.

(** The two ways in which [json.loads] fails: [ValueError] (its subclass
    [JSONDecodeError] for a malformed text, [ValueError] itself for an
    integer literal over the digit limit) and [RecursionError]. *)
Inductive load_error : Type := LoadValueError | LoadRecursionError.

(** The scanner, with [fuel] levels of nesting left.  It goes through the
    text from left to right and stops at the first failure; entering an
    array or an object, even an empty one, takes a level; in an object the
    last member with a given key wins. *)
Fixpoint json_scan `{!Runtime} (fuel : nat) (j : json) {struct j}
    : load_error + value :=
  match j with
  | JNull => inr VNone
  | JBool b => inr (VBool b)
  | JInt n => if int_fits n then inr (VInt n) else inl LoadValueError
  | JFloat x => inr (VFloat x)
  | JStr s => inr (VStr s)
  | JBad => inl LoadValueError
  | JArr items =>
      match fuel with
      | O => inl LoadRecursionError
      | S fuel' =>
          (fix scan_items (js : list json) (acc : list value)
             : load_error + value :=
             match js with
             | [] => inr (VList (reverse acc))
             | j' :: js' =>
                 match json_scan fuel' j' with
                 | inl e => inl e
                 | inr v => scan_items js' (v :: acc)
                 end
             end) items []
      end
  | JObj members =>
      match fuel with
      | O => inl LoadRecursionError
      | S fuel' =>
          (fix scan_members (ms : list (string * json))
               (acc : gmap string value) : load_error + value :=
             match ms with
             | [] => inr (VDict acc)
             | (k, j') :: ms' =>
                 match json_scan fuel' j' with
                 | inl e => inl e
                 | inr v => scan_members ms' (<[k := v]> acc)
                 end
             end) members ∅
      end
  end.

(** [json.loads(data)]: the scanner on the text, then the check that nothing
    follows it ([JSONDecodeError], "Extra data"). *)
Definition json_loads `{!Runtime} (b : raw_body) : load_error + value :=
  match json_scan loads_depth (text b) with
  | inr v => if extra_data b then inl LoadValueError else inr v
  | inl e => inl e
  end.

(** ** Exceptions and responses *)

(** An exception is either one of werkzeug's [HTTPException]s, which carries
    its status code, or any other Python exception, known by its class name. *)
Inductive exn : Type :=
  | HTTPException (code : nat)
  | Exception (name : string).

Inductive payload : Type :=
  | JsonBody (d : gmap string value)
  | ErrorPage.

Record response : Type := Response { status : nat; body : payload }.

(** ** Requests *)

(** A request as it arrives, routed to the view, i.e. a [POST /predict]:
    whether its content type indicates JSON, and its body. *)
Record http_request : Type :=
  HttpRequest { json_content_type : bool; http_body : raw_body }.

(** The same request as the framework presents it to the view.  [is_json]
    tells whether the content type indicates JSON; [json_body] is the outcome
    of [json.loads] on the body. *)
Record request : Type :=
  Request { is_json : bool; json_body : load_error + value }.

Definition receive `{!Runtime} (hreq : http_request) : request :=
  Request (json_content_type hreq) (json_loads (http_body hreq)).

(** What [get_json] does when the content type does not indicate JSON differs
    between releases of the framework: it returns [None], or raises
    [BadRequest], or raises [UnsupportedMediaType]. *)
Inductive mimetype_policy : Type := ReturnNone | Raise400 | Raise415.

(** [request.get_json()] with its default arguments.  With a JSON content
    type the body is loaded; a [ValueError] of the loader is caught and
    handed to [on_json_loading_failed], which raises [BadRequest]; any other
    exception of the loader, so its [RecursionError], is not caught.  With
    another content type the body is not loaded at all. *)
Definition get_json (pol : mimetype_policy) (req : request) : exn + value :=
  if is_json req then
    match json_body req with
    | inr v => inr v
    | inl LoadValueError => inl (HTTPException 400)
    | inl LoadRecursionError => inl (Exception "RecursionError")
    end
  else
    match pol with
    | ReturnNone => inr VNone
    | Raise400 => inl (HTTPException 400)
    | Raise415 => inl (HTTPException 415)
    end.

(** [data.get(key, default)]: only a [dict] has the method. *)
Definition py_get (data : value) (key : string) (dflt : value) : exn + value :=
  match data with
  | VDict d => inr (default dflt (d !! key))
  | _ => inl (Exception "AttributeError")
  end.

(** [y[i]] on the sequence that the model returns. *)
Definition getitem (y : list value) (i : nat) : exn + value :=
  match y !! i with
  | Some v => inr v
  | None => inl (Exception "IndexError")
  end.

(** [jsonify(d)]: a 200 response carrying [d], unless [d] cannot be dumped. *)
Definition jsonify `{!Runtime} (d : gmap string value) : exn + response :=
  match dumps_error dumps_depth (VDict d) with
  | None => inr (Response 200 (JsonBody d))
  | Some name => inl (Exception name)
  end.

(** ** The model artifact *)

(** The object stored in [model.joblib] is opaque; the service uses one
    capability of it, [model.predict(X)].  The call may raise an (ordinary)
    Python exception, named by its class, and nothing in the language prevents
    it from changing the object, so it returns the object's new state too. *)
Class Estimator (M : Type) : Type :=
  model_predict : M → list (list value) → M * (string + list value).

(** ** Process state and effects *)

Inductive event : Type :=
  | DiskRead (path : string)
  | PredictCall (X : list (list value)).

Definition is_disk_read (e : event) : bool :=
  match e with
  | DiskRead _ => true
  | PredictCall _ => false
  end.

Section Service.
Context {M : Type} `{!Estimator M, !Runtime}.

(** The global [model] and the effects performed so far, oldest first. *)
Record process : Type := Process { model : M; log : list event }.

Definition Eff (A : Type) : Type := process → process * (exn + A).

#[local] Instance Eff_ret : MRet Eff := λ A a p, (p, inr a).
#[local] Instance Eff_bind : MBind Eff := λ A B k m p,
  match m p with
  | (p', inr a) => k a p'
  | (p', inl e) => (p', inl e)
  end.

(** A computation without effect on the process. *)
Definition lift {A} (r : exn + A) : Eff A := λ p, (p, r).

(** [model.predict(X)] on the global [model]. *)
Definition call_predict (X : list (list value)) : Eff (list value) := λ p,
  let '(m', r) := model_predict (model p) X in
  (Process m' (log p ++ [PredictCall X]),
   match r with
   | inr y => inr y
   | inl name => inl (Exception name)
   end).

(** [joblib.load(path)].  Unpickling reads the file, imports the modules of
    the classes pickled in it, and returns the object or raises; what it does
    for a path depends on the whole deployment (the files, the packages
    installed) and is taken as given: [deployment path] is the object
    returned, or the class of the exception raised. *)
Definition joblib_load (deployment : string → string + M) (path : string)
    : exn + M :=
  match deployment path with
  | inr m => inr m
  | inl name => inl (Exception name)
  end.

(** The module body up to [app.run]: load the model, or die. *)
Definition startup (deployment : string → string + M) : exn + process :=
  match joblib_load deployment "model.joblib" with
  | inr m => inr (Process m [DiskRead "model.joblib"])
  | inl e => inl e
  end.

Variable pol : mimetype_policy.

(** The view function. *)
Definition predict (req : request) : Eff response :=
  data ← lift (get_json pol req);
  engagement_score ← lift (py_get data "engagement_score" (VInt 0));
  experience_score ← lift (py_get data "experience_score" (VInt 0));
  y ← call_predict [[engagement_score; experience_score]];
  prediction ← lift (getitem y 0);
  lift (jsonify {[ "satisfaction_score" := prediction;
                   "model_version" := VStr "1.0.0" ]}).

(** The framework around the view: an [HTTPException] becomes the response
    with its code, any other exception a 500, both with the default error
    page. *)
Definition serve (req : request) (p : process) : process * response :=
  match predict req p with
  | (p', inr resp) => (p', resp)
  | (p', inl (HTTPException code)) => (p', Response code ErrorPage)
  | (p', inl (Exception _)) => (p', Response 500 ErrorPage)
  end.

(** A request from its arrival to its response. *)
Definition handle (hreq : http_request) (p : process) : process * response :=
  serve (receive hreq) p.

(** [app.run]: requests are served one after the other. *)
Fixpoint serve_all (reqs : list request) (p : process) : process * list response :=
  match reqs with
  | [] => (p, [])
  | req :: reqs' =>
      let '(p', resp) := serve req p in
      let '(p'', resps) := serve_all reqs' p' in
      (p'', resp :: resps)
  end.

End Service.

Arguments process : clear implicits.
Arguments Eff : clear implicits.

(** ** A concrete interpreter and a concrete artifact *)

(** The defaults of the interpreter for the digit limit, and nesting budgets
    of the order left by its default recursion limit of 1000. *)
Definition cpython_defaults : Runtime :=
  {| max_str_digits := 4300; loads_depth := 900; dumps_depth := 900 |}.

(** A linear model with integer coefficients over two integer features.  Like
    the input validation of a numeric estimator, it refuses a row that is not
    made of two integers (raising [ValueError]); a call never changes it. *)
Module Toy.

Record linear : Type := Linear { w0 : Z; w1 : Z; bias : Z }.

Definition predict_row (m : linear) (row : list value) : option value :=
  match row with
  | [VInt x0; VInt x1] => Some (VInt (w0 m * x0 + w1 m * x1 + bias m))
  | _ => None
  end.

#[global] Instance linear_estimator : Estimator linear := λ m X,
  (m, match mapM (predict_row m) X with
      | Some y => inr y
      | None => inl "ValueError"
      end).

Definition artifact : linear := Linear 2 3 1.

(** A deployment with the artifact in [model.joblib] and no other file. *)
Definition deployment (path : string) : string + linear :=
  if decide (path = "model.joblib") then inr artifact
  else inl "FileNotFoundError".

Definition booted : process linear := Process artifact [DiskRead "model.joblib"].

End Toy.

(** ** Notation for the statements *)

(** The request that carries the JSON document [v] with a JSON content type. *)
Definition json_request (v : value) : request := Request true (inr v).

(** The row that the view builds from a JSON object. *)
Definition features (d : gmap string value) : list (list value) :=
  [[default (VInt 0) (d !! "engagement_score");
    default (VInt 0) (d !! "experience_score")]].

(** The estimator never changes the object it is called on. *)
Definition read_only (M : Type) `{!Estimator M} : Prop :=
  ∀ (m : M) (X : list (list value)), (model_predict m X).1 = m.

(** The row on which the view calls the model for a request, when it gets
    that far: the JSON loading has to succeed and give an object. *)
Definition model_input (pol : mimetype_policy) (req : request)
    : option (list (list value)) :=
  match get_json pol req with
  | inr (VDict d) => Some (features d)
  | _ => None
  end.

(** The model object after it was called on each of [rows] in turn. *)
Definition model_after {M : Type} `{!Estimator M} (m : M)
    (rows : list (list (list value))) : M :=
  fold_left (λ m' X, (model_predict m' X).1) rows m.

(** ** A second concrete artifact

    An object that answers every call with the same canned outcome and keeps
    count of its calls, so that each call changes it. *)
Module Canned.

Record canned : Type := Canned { outcome : string + list value; calls : nat }.

#[global] Instance canned_estimator : Estimator canned := λ m X,
  (Canned (outcome m) (S (calls m)), outcome m).

(** No prediction at all, and a NumPy integer as a classifier would give. *)
Definition mute : canned := Canned (inr []) 0.
Definition labeller : canned := Canned (inr [VObject "numpy.int64"]) 0.

End Canned.

(** Running the view by unfolding the monad. *)
Ltac unfold_view :=
  unfold serve, predict, mbind, Eff_bind, lift, call_predict,
    json_request, get_json, py_get, getitem, jsonify;
  cbn -[json_serializable dumps_error dumps_ok].

(** ** Properties *)

(** A dictionary can be dumped exactly when all its values can, with one
    level less. *)
Lemma dumps_ok_dict `{!Runtime} (fuel : nat) (d : gmap string value) :
  dumps_ok (S fuel) (VDict d) = true ↔
  map_Forall (λ _ v, dumps_ok fuel v = true) d.
Proof.
  cbn [dumps_ok].
  apply (map_fold_weak_ind
    (λ (b : bool) (m : gmap string value),
       b = true ↔ map_Forall (λ _ v, dumps_ok fuel v = true) m)).
  - split; [intros _; apply map_Forall_empty | done].
  - intros k v m b Hk IH. rewrite map_Forall_insert by done.
    rewrite andb_true_iff. by rewrite IH.
Qed.

(** [json.dumps] raises exactly on the values that it does not accept. *)
Lemma dumps_error_None `{!Runtime} (fuel : nat) (v : value) :
  dumps_error fuel v = None ↔ dumps_ok fuel v = true.
Proof.
  revert v. induction fuel as [|fuel IH]; intros v.
  - destruct v; cbn; try done. by destruct (int_fits n).
  - destruct v as [| | n | | |l|d|]; cbn -[map_fold]; try done.
    + by destruct (int_fits n).
    + induction l as [|v l IHl]; [done |]. cbn.
      rewrite andb_true_iff, <-IHl, <-IH.
      destruct (dumps_error fuel v); [| by split; [| intros [_ ?]]].
      by split; [| intros [? _]].
    + induction d as [|k v d Hk Hfirst IHd] using map_first_key_ind.
      { by rewrite !map_fold_empty. }
      rewrite !(map_fold_insert_first_key _ _ d k v) by done.
      rewrite andb_true_iff, <-IHd, <-IH.
      destruct (dumps_error fuel v); [| by split; [| intros [_ ?]]].
      by split; [| intros [? _]].
Qed.

(** The dictionary that the view hands to [jsonify]: it is dumped exactly
    when the prediction can be. *)
Lemma dumps_ok_answer `{!Runtime} (prediction : value) :
  dumps_ok dumps_depth
    (VDict {[ "satisfaction_score" := prediction;
              "model_version" := VStr "1.0.0" ]})
  = json_serializable prediction.
Proof.
  unfold json_serializable. destruct dumps_depth as [|fuel]; [done |].
  destruct (dumps_ok fuel prediction) eqn:Hp.
  - apply dumps_ok_dict.
    apply map_Forall_insert_2; [done |].
    by apply map_Forall_singleton.
  - apply not_true_is_false. intros Hd.
    apply dumps_ok_dict in Hd.
    specialize (Hd "satisfaction_score" prediction).
    rewrite lookup_insert_eq in Hd. specialize (Hd eq_refl). congruence.
Qed.

Lemma jsonify_answer `{!Runtime} (prediction : value) :
  let answer : gmap string value :=
    {[ "satisfaction_score" := prediction; "model_version" := VStr "1.0.0" ]} in
  if json_serializable prediction
  then jsonify answer = inr (Response 200 (JsonBody answer))
  else ∃ name, jsonify answer = inl (Exception name).
Proof.
  cbv zeta. rewrite <-dumps_ok_answer. unfold jsonify.
  pose proof (dumps_error_None dumps_depth
    (VDict {[ "satisfaction_score" := prediction;
              "model_version" := VStr "1.0.0" ]})) as Hdump.
  destruct (dumps_error _ _) as [name|]; destruct (dumps_ok _ _);
    try done; try by eexists.
  - by destruct Hdump as [_ Hdump]; specialize (Hdump eq_refl).
  - by destruct Hdump as [Hdump _]; specialize (Hdump eq_refl).
Qed.

Section Properties.
Context {M : Type} `{!Estimator M, !Runtime} (pol : mimetype_policy).
Implicit Types (p : process M) (d : gmap string value) (req : request).

(** The view on a JSON object: one call of the model on [features d], and
    the response is decided by the outcome of that call. *)
Lemma serve_json_object d p :
  serve pol (json_request (VDict d)) p =
    let '(m', r) := model_predict (model p) (features d) in
    (Process m' (log p ++ [PredictCall (features d)]),
     match r with
     | inr (prediction :: _) =>
         if json_serializable prediction
         then Response 200
                (JsonBody {[ "satisfaction_score" := prediction;
                             "model_version" := VStr "1.0.0" ]})
         else Response 500 ErrorPage
     | _ => Response 500 ErrorPage
     end).
Proof.
  unfold_view. unfold features.
  destruct (model_predict _ _) as [m' [name|[|y0 y]]];
    cbn -[json_serializable dumps_error dumps_ok]; try done.
  pose proof (jsonify_answer y0) as Hdump. cbv zeta in Hdump.
  unfold jsonify in Hdump.
  destruct (json_serializable y0).
  - by destruct (dumps_error _ _).
  - destruct Hdump as [name Hname]. by destruct (dumps_error _ _).
Qed.

(** Without a JSON content type the view never reaches the model, whatever
    the body is. *)
Lemma serve_not_json (b : load_error + value) p :
  serve pol (Request false b) p =
    (p, Response match pol with
                 | ReturnNone => 500
                 | Raise400 => 400
                 | Raise415 => 415
                 end ErrorPage).
Proof. unfold_view. by destruct pol. Qed.

(** Every request either reaches the model as some JSON object, or is
    turned into an error page before the model is touched. *)
Lemma serve_shape req :
  (∃ d, ∀ p, serve pol req p = serve pol (json_request (VDict d)) p) ∨
  (∃ code, code ≠ 200 ∧ ∀ p, serve pol req p = (p, Response code ErrorPage)).
Proof.
  destruct req as [[] [[]|v]].
  - right. exists 400. split; [lia | done].
  - right. exists 500. split; [lia | done].
  - destruct v; try (right; exists 500; split; [lia | done]).
    left. by eexists.
  - right. eexists. split; [| intros p; apply serve_not_json].
    destruct pol; lia.
  - right. eexists. split; [| intros p; apply serve_not_json].
    destruct pol; lia.
  - right. eexists. split; [| intros p; apply serve_not_json].
    destruct pol; lia.
Qed.

(** The row depends on the two fields only, and an absent field counts as
    the integer 0. *)
Lemma features_agree d1 d2 :
  d1 !! "engagement_score" = d2 !! "engagement_score" →
  d1 !! "experience_score" = d2 !! "experience_score" →
  features d1 = features d2.
Proof. unfold features. by intros -> ->. Qed.

Lemma features_absent_zero (k : string) d :
  features (delete k d) = features (<[k := VInt 0]> d).
Proof.
  unfold features. rewrite !lookup_delete, !lookup_insert.
  by repeat case_decide.
Qed.

(** The only effect of serving a request is the model call, if any. *)
Lemma serve_frame req p :
  ∃ calls,
    log (serve pol req p).1 = log p ++ calls ∧
    Forall (λ e, is_disk_read e = false) calls ∧
    (read_only M → model (serve pol req p).1 = model p).
Proof.
  destruct (serve_shape req) as [[d Hd]|(code & _ & Hcode)].
  - rewrite Hd, serve_json_object.
    exists [PredictCall (features d)].
    pose proof (λ H : read_only M, H (model p) (features d)) as Hro.
    destruct (model_predict _ _) as [m' r]; cbn in *.
    split_and!; [done | by repeat constructor | done].
  - rewrite Hcode. exists []. cbn. by rewrite app_nil_r.
Qed.

Lemma serve_all_frame reqs p :
  ∃ calls,
    log (serve_all pol reqs p).1 = log p ++ calls ∧
    Forall (λ e, is_disk_read e = false) calls ∧
    (read_only M → model (serve_all pol reqs p).1 = model p).
Proof.
  revert p. induction reqs as [|req reqs IH]; intros p; cbn.
  - exists []. by rewrite app_nil_r.
  - destruct (serve_frame req p) as (c1 & Hlog1 & Hc1 & Hm1).
    destruct (serve pol req p) as [p1 resp] eqn:Hserve; cbn in *.
    destruct (IH p1) as (c2 & Hlog2 & Hc2 & Hm2).
    destruct (serve_all pol reqs p1) as [p2 resps]; cbn in *.
    exists (c1 ++ c2). rewrite Hlog2, Hlog1, app_assoc.
    split_and!; [done | by apply Forall_app |].
    intros Hro. by rewrite Hm2, Hm1.
Qed.

(** The response is a function of the request and of the state of the
    model object alone. *)
Lemma serve_response_model req p q :
  model p = model q → (serve pol req p).2 = (serve pol req q).2.
Proof.
  intros Hm. destruct (serve_shape req) as [[d Hd]|(code & _ & Hcode)].
  - rewrite !Hd, !serve_json_object, Hm.
    by destruct (model_predict _ _).
  - by rewrite !Hcode.
Qed.

(** A request whose content type is JSON and whose body loads is served as
    the value loaded. *)
Lemma handle_loaded (b : raw_body) (v : value) p :
  json_loads b = inr v →
  handle pol (HttpRequest true b) p = serve pol (json_request v) p.
Proof. intros Hload. unfold handle, receive, json_request. cbn. by rewrite Hload. Qed.

(** C1, as the code has it: a request with a JSON content type whose body
    the JSON loader accepts, giving the object with [engagement_score] e0 and
    [experience_score] e1, both numbers, is answered with HTTP 200 and a
    [satisfaction_score] that is the first element of what the loaded model
    predicts on the single row [[e0, e1]], provided the model does return a
    prediction there and its first element can be dumped. *)
Theorem predict_returns_model_output p (b : raw_body) (e0 e1 : value)
    (m' : M) (prediction : value) (rest : list value) :
  is_number e0 = true →
  is_number e1 = true →
  json_loads b = inr (VDict {[ "engagement_score" := e0;
                               "experience_score" := e1 ]}) →
  model_predict (model p) [[e0; e1]] = (m', inr (prediction :: rest)) →
  json_serializable prediction = true →
  handle pol (HttpRequest true b) p
  = (Process m' (log p ++ [PredictCall [[e0; e1]]]),
     Response 200 (JsonBody {[ "satisfaction_score" := prediction;
                               "model_version" := VStr "1.0.0" ]})).
Proof.
  intros _ _ Hload Hcall Hdump.
  rewrite (handle_loaded _ _ _ Hload), serve_json_object.
  unfold features. rewrite lookup_insert_eq, lookup_insert_ne by done.
  rewrite lookup_singleton_eq. cbn -[json_serializable].
  by rewrite Hcall, Hdump.
Qed.

(** C2: in a JSON-object body, leaving out [engagement_score]
    (respectively [experience_score]) is the same as sending it with the
    value 0: the process ends in the same state with the same response; in
    particular the body [{}] is answered like the body with both fields 0. *)
Theorem absent_field_defaults_to_zero (j : bool) d p :
  serve pol (Request j (inr (VDict (delete "engagement_score" d)))) p
  = serve pol (Request j (inr (VDict (<["engagement_score" := VInt 0]> d)))) p
  ∧ serve pol (Request j (inr (VDict (delete "experience_score" d)))) p
    = serve pol (Request j (inr (VDict (<["experience_score" := VInt 0]> d)))) p
  ∧ serve pol (Request j (inr (VDict ∅))) p
    = serve pol (Request j (inr (VDict {[ "engagement_score" := VInt 0;
                                          "experience_score" := VInt 0 ]}))) p.
Proof.
  destruct j; [| by rewrite !serve_not_json].
  change (Request true (inr ?v)) with (json_request v).
  rewrite !serve_json_object, !features_absent_zero.
  split_and!; done.
Qed.

(** C3, as the code has it: in a body that the JSON loader returns as an
    object, a field counts as 0 only when it is absent; a value that is
    present, number or not, is handed to the model as it is.  The model is
    called on the row that holds, for each field, the value found under its
    key, and the integer 0 if there is none, and the response is decided by
    what the model returns on that row. *)
Theorem field_defaults_only_when_absent (b : raw_body) d p :
  json_loads b = inr (VDict d) →
  handle pol (HttpRequest true b) p
  = let X := [[default (VInt 0) (d !! "engagement_score");
               default (VInt 0) (d !! "experience_score")]] in
    let '(m', r) := model_predict (model p) X in
    (Process m' (log p ++ [PredictCall X]),
     match r with
     | inr (prediction :: _) =>
         if json_serializable prediction
         then Response 200
                (JsonBody {[ "satisfaction_score" := prediction;
                             "model_version" := VStr "1.0.0" ]})
         else Response 500 ErrorPage
     | _ => Response 500 ErrorPage
     end).
Proof.
  intros Hload. by rewrite (handle_loaded _ _ _ Hload), serve_json_object.
Qed.

(** C4: a response with status 200 carries a JSON object with exactly the
    two fields [satisfaction_score] and [model_version], the latter being
    the string "1.0.0". *)
Theorem success_body_shape req p (p' : process M) (resp : response) :
  serve pol req p = (p', resp) →
  status resp = 200 →
  ∃ answer : gmap string value,
    body resp = JsonBody answer ∧
    answer !! "model_version" = Some (VStr "1.0.0") ∧
    dom answer = ({[ "satisfaction_score"; "model_version" ]} : gset string).
Proof.
  intros Hserve Hok.
  destruct (serve_shape req) as [[d Hd]|(code & Hne & Hcode)].
  - rewrite Hd, serve_json_object in Hserve.
    destruct (model_predict _ _) as [m' [name|[|y0 y]]];
      simplify_eq/=; try done.
    destruct (json_serializable y0); simplify_eq/=.
    eexists. split; [done |]. split.
    + by rewrite lookup_insert_ne, lookup_singleton_eq.
    + by rewrite dom_insert_L, dom_singleton_L.
  - rewrite Hcode in Hserve. by simplify_eq/=.
Qed.

(** C5: the view is deterministic.  The response to a request is a
    function of the request and of the state of the loaded model (the
    prediction of the model being a function of its state and input): two
    processes holding the same model answer the same request alike, whatever
    else they did before; and, the prediction leaving the model as it is, a
    request is answered the same way each time it is made, also after any
    other requests were served in between. *)
Theorem same_request_same_response req (between : list request) p q :
  (model p = model q → (serve pol req p).2 = (serve pol req q).2) ∧
  (read_only M →
   (serve pol req p).2
   = (serve pol req (serve_all pol between (serve pol req p).1).1).2).
Proof.
  split; [apply serve_response_model |].
  intros Hro. apply serve_response_model.
  destruct (serve_frame req p) as (c1 & _ & _ & Hm1).
  destruct (serve_all_frame between (serve pol req p).1) as (c2 & _ & _ & Hm2).
  by rewrite Hm2, Hm1.
Qed.


(** C7: the model is read from disk once, when the process starts and
    before any request is served; serving any sequence of requests leaves
    the global [model] as loaded (the model's own prediction being
    read-only) and performs no further read. *)
Theorem model_loaded_once_never_written (deployment : string → string + M)
    (reqs : list request) p :
  read_only M →
  startup deployment = inr p →
  deployment "model.joblib" = inr (model p) ∧
  model (serve_all pol reqs p).1 = model p ∧
  ∃ calls,
    log (serve_all pol reqs p).1 = DiskRead "model.joblib" :: calls ∧
    Forall (λ e, is_disk_read e = false) calls.
Proof.
  intros Hro Hstart. unfold startup, joblib_load in Hstart.
  destruct (deployment "model.joblib") as [name|m] eqn:Hfile; simplify_eq/=.
  destruct (serve_all_frame reqs (Process m [DiskRead "model.joblib"]))
    as (calls & Hlog & Hcalls & Hm).
  split_and!; [done | by apply Hm |].
  exists calls. by rewrite Hlog.
Qed.

(** C8: a field that is present is not replaced by the default, whatever
    its value, null included: the value itself is put in the row given to
    the model, at the place of its field, and when the model refuses that
    row the request fails with a 500 instead of being served like a request
    without the field. *)
Theorem present_null_reaches_model d (v : value) (X : list (list value))
    (m' : M) (name : string) p :
  (d !! "engagement_score" = Some v ∧
   X = [[v; default (VInt 0) (d !! "experience_score")]]) ∨
  (d !! "experience_score" = Some v ∧
   X = [[default (VInt 0) (d !! "engagement_score"); v]]) →
  model_predict (model p) X = (m', inl name) →
  serve pol (json_request (VDict d)) p
  = (Process m' (log p ++ [PredictCall X]), Response 500 ErrorPage).
Proof.
  intros Hfield Hcall. rewrite serve_json_object.
  assert (features d = X) as ->.
  { unfold features. by destruct Hfield as [[-> ->]|[-> ->]]. }
  by rewrite Hcall.
Qed.

(** C9, as the code has it: for bodies that the JSON loader returns as
    objects, the outcome depends on the values under [engagement_score] and
    [experience_score] only: two such bodies that agree on these two keys,
    absence included, are served alike, whatever their other keys. *)
Theorem other_keys_do_not_matter (j : bool) (b1 b2 : raw_body) d1 d2 p :
  json_loads b1 = inr (VDict d1) →
  json_loads b2 = inr (VDict d2) →
  d1 !! "engagement_score" = d2 !! "engagement_score" →
  d1 !! "experience_score" = d2 !! "experience_score" →
  handle pol (HttpRequest j b1) p = handle pol (HttpRequest j b2) p.
Proof.
  intros Hload1 Hload2 H0 H1. destruct j.
  - rewrite (handle_loaded _ _ _ Hload1), (handle_loaded _ _ _ Hload2).
    by rewrite !serve_json_object, (features_agree d1 d2).
  - unfold handle, receive. cbn. by rewrite !serve_not_json.
Qed.

(** C10: a body that is valid JSON but not an object never gives a
    prediction: the request ends in an error page, with status 500 when the
    content type is JSON, and the model is not called. *)
Theorem non_object_body_is_error (j : bool) (v : value) p :
  is_dict v = false →
  ∃ code, serve pol (Request j (inr v)) p = (p, Response code ErrorPage) ∧
          code ≠ 200 ∧ (j = true → code = 500).
Proof.
  intros Hv. destruct j.
  - exists 500. split_and!; [| lia | done].
    by destruct v.
  - rewrite serve_not_json. eexists. split_and!; [done | | done].
    destruct pol; lia.
Qed.

End Properties.

(** ** Further properties of the view and of the process *)

Section Coverage.
Context {M : Type} `{!Estimator M, !Runtime} (pol : mimetype_policy).
Implicit Types (p : process M) (d : gmap string value) (req : request).

(** Serving goes through the JSON loading first: only an object reaches the
    rest of the view. *)
Lemma serve_by_loading req p :
  serve pol req p =
    match get_json pol req with
    | inr (VDict d) => serve pol (json_request (VDict d)) p
    | inr _ => (p, Response 500 ErrorPage)
    | inl (HTTPException code) => (p, Response code ErrorPage)
    | inl (Exception _) => (p, Response 500 ErrorPage)
    end.
Proof.
  destruct req as [[] [[]|v]]; cbn; try done.
  - by destruct v.
  - rewrite serve_not_json. by destruct pol.
  - rewrite serve_not_json. by destruct pol.
  - rewrite serve_not_json. by destruct pol.
Qed.

Lemma serve_process req p :
  (serve pol req p).1 =
    match model_input pol req with
    | Some X => Process (model_predict (model p) X).1 (log p ++ [PredictCall X])
    | None => p
    end.
Proof.
  rewrite serve_by_loading. unfold model_input.
  destruct (get_json pol req) as [[code|name]|v]; try done.
  destruct v; try done.
  rewrite serve_json_object. by destruct (model_predict _ _).
Qed.

(** X1: the answer is 200 exactly when the request loads as a JSON object, the
    model returns a non-empty prediction on the row built from it, and the
    first element of the prediction can be dumped. *)
Theorem ok_iff_prediction_dumped req p :
  status (serve pol req p).2 = 200 ↔
  ∃ d (m' : M) (y0 : value) (rest : list value),
    get_json pol req = inr (VDict d) ∧
    model_predict (model p) (features d) = (m', inr (y0 :: rest)) ∧
    json_serializable y0 = true.
Proof.
  rewrite serve_by_loading. split.
  - destruct (get_json pol req) as [[code|name]|v] eqn:Hload; cbn; try done.
    + intros ->. unfold get_json in Hload.
      destruct req as [[] [[]|v]], pol; simplify_eq/=.
    + destruct v; cbn; try done.
      rewrite serve_json_object.
      destruct (model_predict _ _) as [m' [name|[|y0 y]]] eqn:Hcall; cbn;
        try done.
      destruct (json_serializable y0) eqn:Hdump; cbn; [| done].
      intros _. by exists d, m', y0, y.
  - intros (d & m' & y0 & rest & -> & Hcall & Hdump).
    by rewrite serve_json_object, Hcall, Hdump.
Qed.

(** X2: a prediction that is empty, or whose first element cannot be dumped, ends
    in a 500, after the model was called: the call stays in the log and the
    model keeps the state in which the call left it. *)
Theorem unusable_prediction_is_500 d p (m' : M) (y : list value) :
  model_predict (model p) (features d) = (m', inr y) →
  y = [] ∨ (∃ y0 rest, y = y0 :: rest ∧ json_serializable y0 = false) →
  serve pol (json_request (VDict d)) p
  = (Process m' (log p ++ [PredictCall (features d)]), Response 500 ErrorPage).
Proof.
  intros Hcall Hbad. rewrite serve_json_object, Hcall.
  destruct Hbad as [->|(y0 & rest & -> & Hdump)]; [done |].
  by rewrite Hdump.
Qed.

(** X3: the process after a sequence of requests: the log grew by one model call
    for each request that loaded as a JSON object, in the order of the
    requests, the model went through exactly these calls, and there is one
    response for each request. *)
Theorem serve_all_process (reqs : list request) p :
  let rows := omap (model_input pol) reqs in
  (serve_all pol reqs p).1
  = Process (model_after (model p) rows) (log p ++ map PredictCall rows) ∧
  length (serve_all pol reqs p).2 = length reqs.
Proof.
  cbv zeta. revert p. induction reqs as [|req reqs IH]; intros p.
  - cbn. rewrite app_nil_r. by destruct p.
  - cbn [serve_all]. pose proof (serve_process req p) as Hstep.
    destruct (serve pol req p) as [p1 resp]. cbn in Hstep. subst p1.
    destruct (IH (match model_input pol req with
                  | Some X => Process (model_predict (model p) X).1
                                (log p ++ [PredictCall X])
                  | None => p
                  end)) as [Hproc Hlen].
    destruct (serve_all pol reqs _) as [p2 resps]. cbn in *.
    split; [| by rewrite Hlen]. rewrite Hproc.
    destruct (model_input pol req) as [X|]; cbn; [| done].
    by rewrite <-app_assoc.
Qed.

(** X4: with a model that its own prediction leaves unchanged, the service is
    stateless: in any sequence of requests, each one gets the response it
    would get if it were the first. *)
Theorem responses_independent_of_history (reqs : list request) p :
  read_only M →
  (serve_all pol reqs p).2 = map (λ req, (serve pol req p).2) reqs.
Proof.
  intros Hro. revert p. induction reqs as [|req reqs IH]; intros p; [done |].
  cbn [serve_all map].
  destruct (serve_frame pol req p) as (c & _ & _ & Hm). specialize (Hm Hro).
  destruct (serve pol req p) as [p1 resp]. cbn in Hm.
  specialize (IH p1). destruct (serve_all pol reqs p1) as [p2 resps].
  cbn in *. f_equal. rewrite IH. apply map_ext. intros req'.
  by apply serve_response_model.
Qed.

(** X5: the statuses that can come out are 200, 400, 415 and 500; the body is the
    error page exactly when the status is not 200; and a 400 or 415 is only
    ever given before the model is called, leaving the process as it was. *)
Theorem status_classification req p :
  (status (serve pol req p).2 = 200 ∨ status (serve pol req p).2 = 400 ∨
   status (serve pol req p).2 = 415 ∨ status (serve pol req p).2 = 500) ∧
  (body (serve pol req p).2 = ErrorPage ↔ status (serve pol req p).2 ≠ 200) ∧
  (status (serve pol req p).2 = 400 ∨ status (serve pol req p).2 = 415 →
   (serve pol req p).1 = p ∧ model_input pol req = None).
Proof.
  rewrite serve_by_loading. unfold model_input.
  assert (∀ (code : nat),
            code = 400 ∨ code = 415 ∨ code = 500 →
            (code = 200 ∨ code = 400 ∨ code = 415 ∨ code = 500) ∧
            (ErrorPage = ErrorPage ↔ code ≠ 200)) as Herror.
  { intros code Hcode. split; [lia |]. split; [lia | done]. }
  destruct (get_json pol req) as [[code|name]|v] eqn:Hload.
  - assert (code = 400 ∨ code = 415) as Hcode.
    { unfold get_json in Hload.
      destruct req as [[] [[]|v]], pol; simplify_eq/=; auto. }
    cbn. destruct (Herror code) as [Hin Hpage]; [lia |]. done.
  - destruct (Herror 500) as [Hin Hpage]; [lia |]. done.
  - destruct (Herror 500) as [Hin Hpage]; [lia |].
    destruct v; try (cbn; split_and!; [done | done | lia]).
    rewrite serve_json_object.
    destruct (model_predict _ _) as [m' [name|[|y0 y]]]; cbn;
      try (split_and!; [done | done | lia]).
    destruct (json_serializable y0); cbn;
      [| split_and!; [done | done | lia]].
    split_and!; [by left | | lia].
    split; [done | lia].
Qed.

(** X8: without a JSON content type there is no prediction, even when the body
    holds a well-formed object: the body is not looked at, the model is not
    called, and the status is 500 in the releases whose loading returns
    [None] and 400 or 415 in the others. *)
Theorem other_content_type_is_error req p :
  is_json req = false →
  serve pol req p
  = (p, Response match pol with
                 | ReturnNone => 500
                 | Raise400 => 400
                 | Raise415 => 415
                 end ErrorPage) ∧
  model_input pol req = None.
Proof.
  destruct req as [[] b]; [done |]. intros _.
  split; [apply serve_not_json |]. unfold model_input. cbn. by destruct pol.
Qed.

End Coverage.

(** X6: the response depends on the model only through the first element of its
    prediction on the row: two artifacts, of any kind, whose predictions on
    the row start with the same value give the same response. *)
Theorem only_first_prediction_matters {M1 M2 : Type}
    `{!Estimator M1, !Estimator M2, !Runtime} (pol : mimetype_policy)
    (d : gmap string value) (p1 : process M1) (p2 : process M2)
    (m1 : M1) (m2 : M2) (y0 : value) (rest1 rest2 : list value) :
  model_predict (model p1) (features d) = (m1, inr (y0 :: rest1)) →
  model_predict (model p2) (features d) = (m2, inr (y0 :: rest2)) →
  (serve pol (json_request (VDict d)) p1).2
  = (serve pol (json_request (VDict d)) p2).2.
Proof.
  intros Hcall1 Hcall2. by rewrite !serve_json_object, Hcall1, Hcall2.
Qed.


(** ** The properties on the concrete interpreter and artifacts *)

#[global] Existing Instance cpython_defaults.

Lemma toy_read_only : read_only Toy.linear.
Proof. intros m X. reflexivity. Qed.

Lemma predict_returns_model_output_witness :
  handle Raise415
    (HttpRequest true
       (RawBody (JObj [("engagement_score", JInt 5);
                       ("experience_score", JInt 3)]) false)) Toy.booted
  = (Process Toy.artifact
       [DiskRead "model.joblib"; PredictCall [[VInt 5; VInt 3]]],
     Response 200 (JsonBody {[ "satisfaction_score" := VInt 20;
                               "model_version" := VStr "1.0.0" ]})).
Proof.
  apply (predict_returns_model_output Raise415 Toy.booted
           (RawBody (JObj [("engagement_score", JInt 5);
                           ("experience_score", JInt 3)]) false)
           (VInt 5) (VInt 3) Toy.artifact (VInt 20) []);
    vm_compute; reflexivity.
Defined.

(** C1 as stated fails: the number 10^4300 is a numeric input, but it has
    4301 digits, the JSON loader refuses to read it, and the request is
    answered with status 400 before the model is asked anything. *)
Lemma oversized_number_is_rejected :
  handle Raise415
    (HttpRequest true
       (RawBody (JObj [("engagement_score", JInt (10 ^ 4300));
                       ("experience_score", JInt 3)]) false)) Toy.booted
  = (Toy.booted, Response 400 ErrorPage).
Proof. vm_compute. reflexivity. Qed.

(** C3 as stated fails: with the field present but holding a string, the
    model is given the string and refuses it, whereas the request without the
    field, like the one with the field at 0, is answered with a prediction. *)
Lemma unparseable_field_is_not_zero :
  let served members :=
    (handle Raise415 (HttpRequest true (RawBody (JObj members) false))
       Toy.booted).2 in
  served [("engagement_score", JStr "abc")] = Response 500 ErrorPage ∧
  served []
  = Response 200 (JsonBody {[ "satisfaction_score" := VInt 1;
                              "model_version" := VStr "1.0.0" ]}) ∧
  served [("engagement_score", JInt 0)] = served [] ∧
  served [("engagement_score", JStr "abc")] ≠ served [].
Proof.
  cbv zeta.
  assert ((handle Raise415
             (HttpRequest true
                (RawBody (JObj [("engagement_score", JStr "abc")]) false))
             Toy.booted).2 = Response 500 ErrorPage) as Hstring
    by (vm_compute; reflexivity).
  assert ((handle Raise415 (HttpRequest true (RawBody (JObj []) false))
             Toy.booted).2
          = Response 200 (JsonBody {[ "satisfaction_score" := VInt 1;
                                      "model_version" := VStr "1.0.0" ]}))
    as Habsent by (vm_compute; reflexivity).
  assert ((handle Raise415
             (HttpRequest true
                (RawBody (JObj [("engagement_score", JInt 0)]) false))
             Toy.booted).2
          = Response 200 (JsonBody {[ "satisfaction_score" := VInt 1;
                                      "model_version" := VStr "1.0.0" ]}))
    as Hzero by (vm_compute; reflexivity).
  split_and!; [exact Hstring | exact Habsent | by rewrite Hzero, Habsent |].
  rewrite Hstring, Habsent. discriminate.
Qed.

Lemma field_defaults_only_when_absent_witness :
  handle Raise415
    (HttpRequest true
       (RawBody (JObj [("engagement_score", JStr "abc")]) false)) Toy.booted
  = (Process Toy.artifact
       [DiskRead "model.joblib"; PredictCall [[VStr "abc"; VInt 0]]],
     Response 500 ErrorPage).
Proof.
  rewrite (field_defaults_only_when_absent Raise415
             (RawBody (JObj [("engagement_score", JStr "abc")]) false)
             {[ "engagement_score" := VStr "abc" ]} Toy.booted)
    by (vm_compute; reflexivity).
  vm_compute; reflexivity.
Defined.

Lemma success_body_shape_witness :
  ∃ answer : gmap string value,
    JsonBody {[ "satisfaction_score" := VInt 20;
                "model_version" := VStr "1.0.0" ]} = JsonBody answer ∧
    answer !! "model_version" = Some (VStr "1.0.0") ∧
    dom answer = ({[ "satisfaction_score"; "model_version" ]} : gset string).
Proof.
  apply (success_body_shape Raise415
           (json_request (VDict {[ "engagement_score" := VInt 5;
                                   "experience_score" := VInt 3 ]}))
           Toy.booted
           (Process Toy.artifact
              [DiskRead "model.joblib"; PredictCall [[VInt 5; VInt 3]]])
           (Response 200 (JsonBody {[ "satisfaction_score" := VInt 20;
                                      "model_version" := VStr "1.0.0" ]})));
    vm_compute; reflexivity.
Defined.

Lemma same_request_same_response_witness :
  let req := json_request (VDict {[ "engagement_score" := VInt 5 ]}) in
  let between := [json_request (VDict ∅);
                  Request true (inl LoadValueError); req] in
  (serve Raise415 req Toy.booted).2
  = (serve Raise415 req (Process Toy.artifact [])).2 ∧
  (serve Raise415 req Toy.booted).2
  = (serve Raise415 req
       (serve_all Raise415 between (serve Raise415 req Toy.booted).1).1).2.
Proof.
  intros req between.
  pose proof (same_request_same_response Raise415 req between
                Toy.booted (Process Toy.artifact [])) as [Hsame Hagain].
  split; [apply Hsame; reflexivity | apply Hagain; exact toy_read_only].
Defined.



Lemma model_loaded_once_never_written_witness :
  let reqs := [json_request (VDict {[ "engagement_score" := VInt 5 ]});
               Request false (inl LoadValueError);
               json_request (VDict {[ "experience_score" := VNone ]})] in
  Toy.deployment "model.joblib" = inr Toy.artifact ∧
  model (serve_all Raise415 reqs Toy.booted).1 = Toy.artifact ∧
  ∃ calls,
    log (serve_all Raise415 reqs Toy.booted).1 = DiskRead "model.joblib" :: calls ∧
    Forall (λ e, is_disk_read e = false) calls.
Proof.
  intros reqs.
  apply (model_loaded_once_never_written Raise415 Toy.deployment reqs Toy.booted).
  - exact toy_read_only.
  - vm_compute; reflexivity.
Defined.

Lemma present_null_reaches_model_witness :
  serve Raise415
    (json_request (VDict {[ "engagement_score" := VNone;
                            "experience_score" := VInt 3 ]})) Toy.booted
  = (Process Toy.artifact
       [DiskRead "model.joblib"; PredictCall [[VNone; VInt 3]]],
     Response 500 ErrorPage)
  ∧ (serve Raise415
       (json_request (VDict {[ "experience_score" := VInt 3 ]})) Toy.booted).2
    = Response 200 (JsonBody {[ "satisfaction_score" := VInt 10;
                                "model_version" := VStr "1.0.0" ]}).
Proof.
  split; [| vm_compute; reflexivity].
  apply (present_null_reaches_model Raise415
           {[ "engagement_score" := VNone; "experience_score" := VInt 3 ]}
           VNone [[VNone; VInt 3]] Toy.artifact "ValueError" Toy.booted).
  - left. split; vm_compute; reflexivity.
  - vm_compute; reflexivity.
Defined.

(** C9 as stated fails: two JSON-object bodies without either field, so
    agreeing on both, are not served alike when one of them has another key
    whose value the JSON loader refuses to read. *)
Lemma extra_key_changes_response :
  let served members :=
    (handle Raise415 (HttpRequest true (RawBody (JObj members) false))
       Toy.booted).2 in
  served [("x", JInt (10 ^ 4300))] = Response 400 ErrorPage ∧
  served []
  = Response 200 (JsonBody {[ "satisfaction_score" := VInt 1;
                              "model_version" := VStr "1.0.0" ]}) ∧
  served [("x", JInt (10 ^ 4300))] ≠ served [].
Proof.
  cbv zeta.
  assert ((handle Raise415
             (HttpRequest true (RawBody (JObj [("x", JInt (10 ^ 4300))]) false))
             Toy.booted).2 = Response 400 ErrorPage) as Hbig
    by (vm_compute; reflexivity).
  assert ((handle Raise415 (HttpRequest true (RawBody (JObj []) false))
             Toy.booted).2
          = Response 200 (JsonBody {[ "satisfaction_score" := VInt 1;
                                      "model_version" := VStr "1.0.0" ]}))
    as Hempty by (vm_compute; reflexivity).
  split_and!; [exact Hbig | exact Hempty |].
  rewrite Hbig, Hempty. discriminate.
Qed.

Lemma other_keys_do_not_matter_witness :
  handle Raise415
    (HttpRequest true
       (RawBody (JObj [("engagement_score", JInt 5);
                       ("experience_score", JInt 3);
                       ("user", JStr "u1")]) false)) Toy.booted
  = handle Raise415
      (HttpRequest true
         (RawBody (JObj [("debug", JBool true);
                         ("experience_score", JInt 3);
                         ("engagement_score", JInt 5)]) false)) Toy.booted.
Proof.
  apply (other_keys_do_not_matter Raise415 true _ _
           {[ "engagement_score" := VInt 5; "experience_score" := VInt 3;
              "user" := VStr "u1" ]}
           {[ "debug" := VBool true; "experience_score" := VInt 3;
              "engagement_score" := VInt 5 ]});
    vm_compute; reflexivity.
Defined.

Lemma non_object_body_is_error_witness :
  ∃ code, serve Raise415 (Request true (inr (VList [VInt 5; VInt 3]))) Toy.booted
          = (Toy.booted, Response code ErrorPage) ∧
          code ≠ 200 ∧ (true = true → code = 500).
Proof.
  apply (non_object_body_is_error Raise415 true (VList [VInt 5; VInt 3]) Toy.booted).
  vm_compute; reflexivity.
Defined.

(** ** The further properties on the concrete artifacts *)

Lemma unusable_prediction_is_500_witness :
  serve Raise415 (json_request (VDict ∅)) (Process Canned.mute [])
  = (Process (Canned.Canned (inr []) 1) [PredictCall [[VInt 0; VInt 0]]],
     Response 500 ErrorPage) ∧
  serve Raise415 (json_request (VDict {[ "engagement_score" := VInt 5 ]}))
    (Process Canned.labeller [])
  = (Process (Canned.Canned (inr [VObject "numpy.int64"]) 1)
       [PredictCall [[VInt 5; VInt 0]]],
     Response 500 ErrorPage).
Proof.
  split.
  - pose proof (unusable_prediction_is_500 Raise415 ∅ (Process Canned.mute [])
                  (Canned.Canned (inr []) 1) []) as Hserve.
    rewrite Hserve; [vm_compute; reflexivity | vm_compute; reflexivity |].
    by left.
  - pose proof (unusable_prediction_is_500 Raise415
                  {[ "engagement_score" := VInt 5 ]} (Process Canned.labeller [])
                  (Canned.Canned (inr [VObject "numpy.int64"]) 1)
                  [VObject "numpy.int64"]) as Hserve.
    rewrite Hserve; [vm_compute; reflexivity | vm_compute; reflexivity |].
    right. exists (VObject "numpy.int64"), []. split; vm_compute; reflexivity.
Defined.

Lemma responses_independent_of_history_witness :
  let reqs := [json_request (VDict {[ "engagement_score" := VInt 5 ]});
               Request true (inl LoadValueError);
               json_request (VDict {[ "experience_score" := VStr "abc" ]});
               json_request (VDict {[ "engagement_score" := VInt 5 ]})] in
  (serve_all Raise415 reqs Toy.booted).2
  = map (λ req, (serve Raise415 req Toy.booted).2) reqs.
Proof.
  intros reqs.
  apply (responses_independent_of_history Raise415 reqs Toy.booted).
  exact toy_read_only.
Defined.

Lemma other_content_type_is_error_witness :
  let req := Request false (inr (VDict {[ "engagement_score" := VInt 5;
                                          "experience_score" := VInt 3 ]})) in
  serve ReturnNone req Toy.booted = (Toy.booted, Response 500 ErrorPage) ∧
  model_input ReturnNone req = None.
Proof.
  intros req.
  apply (other_content_type_is_error ReturnNone req Toy.booted).
  reflexivity.
Defined.

Lemma only_first_prediction_matters_witness :
  let d : gmap string value := {[ "engagement_score" := VInt 5;
                                  "experience_score" := VInt 3 ]} in
  (serve Raise415 (json_request (VDict d)) Toy.booted).2
  = (serve Raise415 (json_request (VDict d))
       (Process (Canned.Canned (inr [VInt 20; VInt 99]) 0) [])).2.
Proof.
  intros d.
  apply (only_first_prediction_matters Raise415 d Toy.booted
           (Process (Canned.Canned (inr [VInt 20; VInt 99]) 0) [])
           Toy.artifact (Canned.Canned (inr [VInt 20; VInt 99]) 1)
           (VInt 20) [] [VInt 99]); vm_compute; reflexivity.
Defined.
